(** * create_icons.py: the icon generator of location-bot

    The script produces [teams-package/color.png] and
    [teams-package/outline.png].  When the imaging library can be imported
    it draws both icons and saves them; otherwise it writes two minimal
    PNG-shaped placeholder files by hand.

    The development embeds the script as a program of a small state and
    exception monad over a world made of a file system, a heap of image
    objects and a trace of observable events. *)

From stdpp Require Import gmap strings list fin_maps.
From Stdlib Require Import ZArith Lia Ascii.

Local Open Scope string_scope.
Local Open Scope list_scope.
Local Open Scope Z_scope.

(** ** Bytes and [struct.pack]

    A byte is an integer in [0, 256); a [bytes] object is a list of them. *)

Definition is_byte (b : Z) : Prop := 0 <= b < 256.

Definition ord (c : ascii) : Z := Z.of_N (Ascii.N_of_ascii c).

(** The bytes of an ASCII literal such as [b'IHDR']. *)
Fixpoint b_lit (s : string) : list Z :=
  match s with
  | EmptyString => []
  | String c r => ord c :: b_lit r
  end.

(** The range of the ['I'] (unsigned 32-bit) format code. *)
Definition in_u32 (n : Z) : Prop := 0 <= n <= 4294967295.

Definition in_u32b (n : Z) : bool := (0 <=? n) && (n <=? 4294967295).

(** Big-endian encoding of one ['I'] field. *)
Definition be32 (n : Z) : list Z :=
  [Z.land (Z.shiftr n 24) 255; Z.land (Z.shiftr n 16) 255;
   Z.land (Z.shiftr n 8) 255; Z.land n 255].

(** [int.from_bytes(bs, 'big')]. *)
Definition be_decode (bs : list Z) : Z :=
  fold_left (fun acc b => acc * 256 + b) bs 0.

(** The Python slice [l[i:j]] for [0 <= i <= j]. *)
Definition slice {A} (i j : nat) (l : list A) : list A :=
  take (j - i)%nat (drop i l).

(** ** Exceptions and results *)

Inductive exn : Type :=
  | ImportError
  | OSError
  | StructError
  | ValueError
  | SystemExit (code : option Z).

Inductive result (A : Type) : Type :=
  | Ok (a : A)
  | Raise (e : exn).
Arguments Ok {A} a.
Arguments Raise {A} e.

(** [struct.pack('>I...I', *args)]: every argument must fit the ['I']
    code, otherwise [struct.error] is raised and nothing is produced. *)
Definition struct_pack_I (args : list Z) : result (list Z) :=
  if forallb in_u32b args then Ok (concat (map be32 args))
  else Raise StructError.

(** ** Images of the imaging library *)

Inductive mode : Type := RGB | RGBA.

Inductive pixel : Type :=
  | PxRGB (r g b : Z)
  | PxRGBA (r g b a : Z).

Definition alpha (p : pixel) : option Z :=
  match p with
  | PxRGB _ _ _ => None
  | PxRGBA _ _ _ a => Some a
  end.

Definition pixel_mode (p : pixel) : mode :=
  match p with
  | PxRGB _ _ _ => RGB
  | PxRGBA _ _ _ _ => RGBA
  end.

(** An image: its mode, its size (width, height) and its rows of pixels,
    top row first. *)
Record image : Type := Image {
  im_mode : mode;
  im_size : Z * Z;
  im_data : list (list pixel)
}.

Definition getpixel (im : image) (x y : Z) : option pixel :=
  if (0 <=? x) && (0 <=? y)
  then row ← im_data im !! Z.to_nat y; row !! Z.to_nat x
  else None.

(** ** The world *)

(** What a file holds: the raw bytes written through a file object, or
    the lossless PNG encoding of an image, kept as the image it decodes
    to. *)
Inductive content : Type :=
  | Raw (bs : list Z)
  | Png (im : image).

Inductive event : Type :=
  | EvPrint (line : string)
  | EvOpen (path : string)
  | EvWrite (path : string) (bs : list Z)
  | EvSave (path : string) (im : image)
  | EvTraceback (e : exn).

Record world : Type := World {
  dirs : gset string;            (* the directories that exist *)
  denied : gset string;          (* paths the system refuses to open for writing *)
  files : gmap string content;   (* the regular files and what they hold *)
  heap : list image;             (* the image objects, by reference *)
  trace : list event             (* observable events, oldest first *)
}.

Definition set_files (f : gmap string content -> gmap string content) (w : world) : world :=
  World (dirs w) (denied w) (f (files w)) (heap w) (trace w).

Definition set_heap (f : list image -> list image) (w : world) : world :=
  World (dirs w) (denied w) (files w) (f (heap w)) (trace w).

Definition emit (e : event) (w : world) : world :=
  World (dirs w) (denied w) (files w) (heap w) (trace w ++ [e]).

(** The lines printed on standard output, oldest first. *)
Definition stdout (w : world) : list string :=
  omap (fun e => match e with EvPrint s => Some s | _ => None end) (trace w).

(** The part of a path before its last slash; [None] without a slash. *)
Fixpoint parent (p : string) : option string :=
  match p with
  | EmptyString => None
  | String c r =>
      match parent r with
      | Some d => Some (String c d)
      | None => if Ascii.eqb c "/" then Some EmptyString else None
      end
  end.

(** Opening [p] for writing needs its parent directory to exist (the
    current directory and the root always do), [p] not to be a directory
    and the system not to refuse it.  Nothing creates a directory. *)
Definition parent_exists (w : world) (p : string) : bool :=
  match parent p with
  | None | Some EmptyString => true
  | Some d => bool_decide (d ∈ dirs w)
  end.

Definition can_open (w : world) (p : string) : bool :=
  parent_exists w p && bool_decide (p ∉ dirs w) && bool_decide (p ∉ denied w).

(** ** The monad of script fragments *)

Definition M (A : Type) : Type := world -> result A * world.

Definition ret {A} (a : A) : M A := fun w => (Ok a, w).

Definition bind {A B} (m : M A) (k : A -> M B) : M B :=
  fun w =>
    match m w with
    | (Ok a, w') => k a w'
    | (Raise e, w') => (Raise e, w')
    end.

Definition raise {A} (e : exn) : M A := fun w => (Raise e, w).

(** [try: m  except: h] *)
Definition try_except {A} (m : M A) (h : exn -> M A) : M A :=
  fun w =>
    match m w with
    | (Ok a, w') => (Ok a, w')
    | (Raise e, w') => h e w'
    end.

Definition lift {A} (r : result A) : M A := fun w => (r, w).

#[global] Instance M_ret : MRet M := @ret.
#[global] Instance M_bind : MBind M := fun A B k m => bind m k.

Definition print (s : string) : M unit := fun w => (Ok tt, emit (EvPrint s) w).

(** [exit()] raises [SystemExit(None)]. *)
Definition exit {A} : M A := raise (SystemExit None).

(** ** Binary files *)

(** [open(p, 'wb')]: the file is created or truncated; the file object is
    represented by its path. *)
Definition open_wb (p : string) : M string :=
  fun w =>
    if can_open w p
    then (Ok p, emit (EvOpen p) (set_files (insert p (Raw [])) w))
    else (Raise OSError, w).

Definition append_bytes (bs : list Z) (c : option content) : content :=
  match c with
  | Some (Raw old) => Raw (old ++ bs)
  | _ => Raw bs
  end.

(** [f.write(bs)] *)
Definition f_write (f : string) (bs : list Z) : M unit :=
  fun w =>
    (Ok tt, emit (EvWrite f bs)
              (set_files (fun fs => <[f := append_bytes bs (fs !! f)]> fs) w)).

(** ** The fallback path *)

Definition png_signature : list Z := [0x89] ++ b_lit "PNG" ++ [0x0D; 0x0A; 0x1A; 0x0A].

Definition ihdr_flags : list Z := [0x08; 0x02; 0x00; 0x00; 0x00].

Definition iend_crc : list Z := [0xAE] ++ b_lit "B`" ++ [0x82].

(** [create_simple_png(width, height, color, filename)].  The [with]
    block closes the file on every exit, so what was written before an
    exception stays in the file. *)
Definition create_simple_png (width height : Z) (color : Z * Z * Z)
    (filename : string) : M unit :=
  f ← open_wb filename;
  f_write f png_signature;;
  len ← lift (struct_pack_I [13]);
  f_write f len;;
  f_write f (b_lit "IHDR");;
  dims ← lift (struct_pack_I [width; height]);
  f_write f dims;;
  f_write f ihdr_flags;;
  f_write f [0x00; 0x00; 0x00; 0x00];;
  zero ← lift (struct_pack_I [0]);
  f_write f zero;;
  f_write f (b_lit "IEND");;
  f_write f iend_crc.

Definition color_path : string := "teams-package/color.png".
Definition outline_path : string := "teams-package/outline.png".

(** The body of the [except ImportError:] handler. *)
Definition fallback_path {A} : M A :=
  print "PIL not available, creating simple files";;
  create_simple_png 192 192 (0, 120, 212) color_path;;
  create_simple_png 32 32 (255, 255, 255) outline_path;;
  print "Simple PNG files created";;
  exit.

(** ** The imaging library: colours *)

#[global] Instance mode_eq_dec : EqDecision mode.
Proof. solve_decision. Defined.

#[global] Instance pixel_eq_dec : EqDecision pixel.
Proof. solve_decision. Defined.

(** A colour argument: a colour string or a tuple of bands. *)
Inductive color_arg : Type :=
  | CName (s : string)
  | CTuple (bands : list Z).

Definition hex_digit (c : ascii) : option Z :=
  let n := ord c in
  if (48 <=? n) && (n <=? 57) then Some (n - 48)
  else if (97 <=? n) && (n <=? 102) then Some (n - 87)
  else if (65 <=? n) && (n <=? 70) then Some (n - 55)
  else None.

Definition hex_pair (a b : ascii) : option Z :=
  h ← hex_digit a; l ← hex_digit b; Some (16 * h + l).

(** The colour names the script uses, as the library's table maps them. *)
Definition colormap (name : string) : option string :=
  if String.eqb name "white" then Some "#ffffff" else None.

(** [ImageColor.getrgb] on a colour name or a [#rrggbb] string. *)
Definition getrgb (color : string) : option (Z * Z * Z) :=
  match default color (colormap color) with
  | String "#" (String a (String b (String c (String d (String e (String f EmptyString)))))) =>
      r ← hex_pair a b; g ← hex_pair c d; bl ← hex_pair e f; Some (r, g, bl)
  | _ => None
  end.

(** The pixel value a colour argument stands for in an image of mode [m];
    an opaque colour gets alpha 255 in [RGBA]. *)
Definition ink_of (m : mode) (c : color_arg) : result pixel :=
  match c, m with
  | CName s, _ =>
      match getrgb s, m with
      | Some (r, g, b), RGB => Ok (PxRGB r g b)
      | Some (r, g, b), RGBA => Ok (PxRGBA r g b 255)
      | None, _ => Raise ValueError
      end
  | CTuple [r; g; b], RGB => Ok (PxRGB r g b)
  | CTuple [r; g; b], RGBA => Ok (PxRGBA r g b 255)
  | CTuple [r; g; b; a], RGBA => Ok (PxRGBA r g b a)
  | CTuple _, _ => Raise ValueError
  end.

(** The default ink of a drawing object: all bits set. *)
Definition default_ink (m : mode) : pixel :=
  match m with
  | RGB => PxRGB 255 255 255
  | RGBA => PxRGBA 255 255 255 255
  end.

(** ** The imaging library: image objects *)

Definition alloc (im : image) : M nat :=
  fun w => (Ok (length (heap w)), set_heap (fun h => h ++ [im]) w).

Definition deref (r : nat) : M image :=
  fun w =>
    match heap w !! r with
    | Some im => (Ok im, w)
    | None => (Raise ValueError, w)
    end.

Definition update (r : nat) (f : image -> image) : M unit :=
  fun w => (Ok tt, set_heap (fun h => match h !! r with
                                      | Some im => <[r := f im]> h
                                      | None => h
                                      end) w).

(** A fresh image: [snd size] rows of [fst size] pixels of one value. *)
Definition blank (m : mode) (size : Z * Z) (px : pixel) : image :=
  Image m size (replicate (Z.to_nat (snd size)) (replicate (Z.to_nat (fst size)) px)).

(** [Image.new(mode, size, color)] *)
Definition Image_new (m : mode) (size : Z * Z) (color : color_arg) : M nat :=
  if (fst size <? 0) || (snd size <? 0) then raise ValueError
  else
    px ← lift (ink_of m color);
    alloc (blank m size px).

Fixpoint ends_with (suffix s : string) : bool :=
  String.eqb suffix s ||
  match s with
  | EmptyString => false
  | String _ r => ends_with suffix r
  end.

(** The file at [p] is opened for writing and receives the encoded image. *)
Definition write_png (p : string) (i : image) : M unit :=
  fun w =>
    if can_open w p
    then (Ok tt, emit (EvSave p i) (set_files (insert p (Png i)) w))
    else (Raise OSError, w).

(** [img.save(path)]: the format comes from the extension. *)
Definition Image_save (im : nat) (p : string) : M unit :=
  i ← deref im;
  if ends_with ".png" p then write_png p i else raise ValueError.

(** ** The imaging library: drawing *)

(** The rasteriser of the library decides which pixels a shape covers.
    Its algorithms are not part of the script; the script's properties
    rest on three facts about it: an ellipse stays inside its bounding
    box, a filled polygon stays inside the bounding box of its vertices,
    and a filled polygon covers its vertices. *)
Class Rasterizer : Type := {
  ellipse_covers : Z * Z * Z * Z -> bool -> Z -> Z -> Z -> bool;
  polygon_covers : list (Z * Z) -> bool -> Z -> Z -> Z -> bool;
  ellipse_in_box : forall x0 y0 x1 y1 fill width x y,
    ellipse_covers (x0, y0, x1, y1) fill width x y = true ->
    x0 <= x <= x1 /\ y0 <= y <= y1;
  polygon_in_box : forall vs width x y,
    polygon_covers vs true width x y = true ->
    (exists v, v ∈ vs /\ fst v <= x) /\ (exists v, v ∈ vs /\ x <= fst v) /\
    (exists v, v ∈ vs /\ snd v <= y) /\ (exists v, v ∈ vs /\ y <= snd v);
  polygon_vertex : forall vs width x y,
    (x, y) ∈ vs -> polygon_covers vs true width x y = true
}.

(** Every covered pixel of the image takes the ink; the others keep their
    value.  Pixels outside the image do not exist, so shapes are clipped. *)
Definition paint (covers : Z -> Z -> bool) (ink : pixel) (im : image) : image :=
  Image (im_mode im) (im_size im)
    (imap (fun y row =>
             imap (fun x p => if covers (Z.of_nat x) (Z.of_nat y) then ink else p) row)
          (im_data im)).

(** A drawing object holds a reference to its image. *)
Record draw : Type := Draw { draw_im : nat }.

Definition ImageDraw_Draw (im : nat) : M draw := ret (Draw im).

Definition opt_ink (m : mode) (c : option color_arg) : result (option pixel) :=
  match c with
  | None => Ok None
  | Some c =>
      match ink_of m c with
      | Ok p => Ok (Some p)
      | Raise e => Raise e
      end
  end.

(** [ImageDraw._getink(outline, fill)] *)
Definition getink (m : mode) (outline fill : option color_arg)
    : result (option pixel * option pixel) :=
  match outline, fill with
  | None, None => Ok (Some (default_ink m), None)
  | _, _ =>
      match opt_ink m outline with
      | Raise e => Raise e
      | Ok ink =>
          match opt_ink m fill with
          | Raise e => Raise e
          | Ok fill_ink => Ok (ink, fill_ink)
          end
      end
  end.

Section Drawing.
Context {R : Rasterizer}.

Definition draw_shape (covers : bool -> Z -> Z -> Z -> bool) (d : draw)
    (fill outline : option color_arg) (width : Z) : M unit :=
  im ← deref (draw_im d);
  inks ← lift (getink (im_mode im) outline fill);
  match snd inks with
  | Some fill_ink => update (draw_im d) (paint (covers true 0) fill_ink)
  | None => ret tt
  end;;
  match fst inks with
  | Some ink =>
      if bool_decide (Some ink ≠ snd inks) && negb (width =? 0)
      then update (draw_im d) (paint (covers false width) ink)
      else ret tt
  | None => ret tt
  end.

(** [draw.ellipse(xy, fill, outline, width)] *)
Definition ellipse (d : draw) (xy : Z * Z * Z * Z)
    (fill outline : option color_arg) (width : Z) : M unit :=
  draw_shape (ellipse_covers xy) d fill outline width.

(** [draw.polygon(xy, fill, outline, width)] *)
Definition polygon (d : draw) (xy : list (Z * Z))
    (fill outline : option color_arg) (width : Z) : M unit :=
  draw_shape (polygon_covers xy) d fill outline width.

(** ** The primary path *)

Definition primary_path : M unit :=
  img ← Image_new RGB (192, 192) (CName "#0078D4");
  draw ← ImageDraw_Draw img;
  ellipse draw (76, 56, 116, 96) (Some (CName "white")) None 1;;
  ellipse draw (86, 66, 106, 86) (Some (CName "#0078D4")) None 1;;
  polygon draw [(96, 96); (86, 116); (106, 116)] (Some (CName "white")) None 1;;
  Image_save img color_path;;
  print "Color icon saved: teams-package/color.png";;
  img2 ← Image_new RGBA (32, 32) (CTuple [0; 0; 0; 0]);
  draw2 ← ImageDraw_Draw img2;
  ellipse draw2 (12, 8, 20, 16) None (Some (CName "white")) 2;;
  polygon draw2 [(16, 16); (14, 20); (18, 20)] (Some (CName "white")) None 1;;
  Image_save img2 outline_path;;
  print "Outline icon saved: teams-package/outline.png";;
  print "Icons created successfully!".
End Drawing.

(** ** The script *)

(** [from PIL import Image, ImageDraw, ImageFont]: the library is there
    or the import raises. *)
Definition import_PIL (pil : option Rasterizer) : M Rasterizer :=
  match pil with
  | Some R => ret R
  | None => raise ImportError
  end.

Definition script (pil : option Rasterizer) : M unit :=
  R ← try_except (import_PIL pil)
        (fun e => match e with
                  | ImportError => fallback_path
                  | _ => raise e
                  end);
  @primary_path R.

(** The interpreter at the process boundary: normal completion and
    [SystemExit(None)] give status 0; any other exception is reported on
    standard error and gives status 1. *)
Definition python_main (prog : M unit) (w : world) : Z * world :=
  match prog w with
  | (Ok _, w') => (0, w')
  | (Raise (SystemExit None), w') => (0, w')
  | (Raise (SystemExit (Some n)), w') => (Z.land n 255, w')
  | (Raise e, w') => (1, emit (EvTraceback e) w')
  end.

(** A process starts with no image object and an empty trace, on the
    file system it finds. *)
Definition boot (w : world) : world :=
  World (dirs w) (denied w) (files w) [] [].

(** One invocation of the script. *)
Definition run (pil : option Rasterizer) (w : world) : Z * world :=
  python_main (script pil) (boot w).

(** ** A reference rasteriser

    A plain geometric rasteriser: a pixel belongs to an ellipse when its
    centre lies inside the ellipse inscribed in the bounding box (outside
    the inner ellipse for an outline), and to a polygon when it is a
    vertex or lies inside by the even-odd rule.  It shows that the three
    facts asked of a rasteriser can be met together. *)

Definition in_box (x0 y0 x1 y1 x y : Z) : bool :=
  (x0 <=? x) && (x <=? x1) && (y0 <=? y) && (y <=? y1).

Definition in_ellipse (x0 y0 x1 y1 x y : Z) : bool :=
  let a := x1 - x0 in
  let b := y1 - y0 in
  let dx := 2 * x - (x0 + x1) in
  let dy := 2 * y - (y0 + y1) in
  dx * dx * b * b + dy * dy * a * a <=? a * a * b * b.

Definition geo_ellipse (box : Z * Z * Z * Z) (fill : bool) (width x y : Z) : bool :=
  let '(x0, y0, x1, y1) := box in
  in_box x0 y0 x1 y1 x y && in_ellipse x0 y0 x1 y1 x y &&
  (fill || negb (in_ellipse (x0 + width) (y0 + width) (x1 - width) (y1 - width) x y)).

(** The closed chain of edges through the vertices. *)
Fixpoint edges (first : Z * Z) (vs : list (Z * Z)) : list ((Z * Z) * (Z * Z)) :=
  match vs with
  | [] => []
  | v :: r =>
      match r with
      | [] => [(v, first)]
      | v' :: _ => (v, v') :: edges first r
      end
  end.

(** Does the ray from (x, y) to the right cross the edge? *)
Definition crosses (x y : Z) (e : (Z * Z) * (Z * Z)) : bool :=
  let '((x1, y1), (x2, y2)) := e in
  if (y1 <=? y) && (y <? y2)
  then (x - x1) * (y2 - y1) <? (y - y1) * (x2 - x1)
  else if (y2 <=? y) && (y <? y1)
  then (y - y1) * (x2 - x1) <? (x - x1) * (y2 - y1)
  else false.

Definition inside_even_odd (vs : list (Z * Z)) (x y : Z) : bool :=
  match vs with
  | [] => false
  | v :: _ => fold_left xorb (map (crosses x y) (edges v vs)) false
  end.

Definition in_hull_box (vs : list (Z * Z)) (x y : Z) : bool :=
  existsb (fun v => fst v <=? x) vs && existsb (fun v => x <=? fst v) vs &&
  existsb (fun v => snd v <=? y) vs && existsb (fun v => y <=? snd v) vs.

Definition is_vertex (vs : list (Z * Z)) (x y : Z) : bool :=
  existsb (fun v => (fst v =? x) && (snd v =? y)) vs.

Definition geo_polygon (vs : list (Z * Z)) (fill : bool) (width x y : Z) : bool :=
  is_vertex vs x y || (fill && in_hull_box vs x y && inside_even_odd vs x y).

(** ** What the two paths are expected to leave behind *)

(** The 45 bytes of a placeholder file. *)
Definition placeholder (width height : Z) : list Z :=
  png_signature ++ be32 13 ++ b_lit "IHDR" ++ be32 width ++ be32 height ++
  ihdr_flags ++ [0; 0; 0; 0] ++ be32 0 ++ b_lit "IEND" ++ iend_crc.

(** The file operations of one successful call of the emitter. *)
Definition emitter_events (width height : Z) (p : string) : list event :=
  [EvOpen p; EvWrite p png_signature; EvWrite p (be32 13);
   EvWrite p (b_lit "IHDR"); EvWrite p (be32 width ++ be32 height);
   EvWrite p ihdr_flags; EvWrite p [0; 0; 0; 0]; EvWrite p (be32 0);
   EvWrite p (b_lit "IEND"); EvWrite p iend_crc].

(** What is in the file when [struct.pack] rejects a dimension. *)
Definition truncated_placeholder : list Z :=
  png_signature ++ be32 13 ++ b_lit "IHDR".

Section Icons.
Context {R : Rasterizer}.

Definition color_icon : image :=
  paint (polygon_covers [(96, 96); (86, 116); (106, 116)] true 0) (PxRGB 255 255 255)
    (paint (ellipse_covers (86, 66, 106, 86) true 0) (PxRGB 0 120 212)
       (paint (ellipse_covers (76, 56, 116, 96) true 0) (PxRGB 255 255 255)
          (blank RGB (192, 192) (PxRGB 0 120 212)))).

Definition outline_icon : image :=
  paint (polygon_covers [(16, 16); (14, 20); (18, 20)] true 0) (PxRGBA 255 255 255 255)
    (paint (ellipse_covers (12, 8, 20, 16) false 2) (PxRGBA 255 255 255 255)
       (blank RGBA (32, 32) (PxRGBA 0 0 0 0))).
End Icons.

(** The file that path [pil] writes at its first and at its second step. *)
Definition color_file (pil : option Rasterizer) : content :=
  match pil with
  | Some R => Png (@color_icon R)
  | None => Raw (placeholder 192 192)
  end.

Definition outline_file (pil : option Rasterizer) : content :=
  match pil with
  | Some R => Png (@outline_icon R)
  | None => Raw (placeholder 32 32)
  end.

(** The file-system events of a trace, in order, as the paths they touch. *)
Definition touched (t : list event) : list string :=
  omap (fun e => match e with
                 | EvOpen p | EvWrite p _ | EvSave p _ => Some p
                 | _ => None
                 end) t.

(** The image that the encoded file [c] decodes to; a file of bytes
    written by hand holds no encoded image. *)
Definition decode_png (c : content) : option image :=
  match c with
  | Png im => Some im
  | Raw _ => None
  end.

(** The image objects a run leaves in its process. *)
Definition run_heap (pil : option Rasterizer) : list image :=
  match pil with
  | Some R => [@color_icon R; @outline_icon R]
  | None => []
  end.

(** The events of a run: what comes before the color file is opened, the
    events from there up to the opening of the outline file, and the
    rest. *)
Definition prelude (pil : option Rasterizer) : list event :=
  match pil with
  | Some _ => []
  | None => [EvPrint "PIL not available, creating simple files"]
  end.

Definition color_step (pil : option Rasterizer) : list event :=
  match pil with
  | Some R => [EvSave color_path (@color_icon R);
               EvPrint "Color icon saved: teams-package/color.png"]
  | None => emitter_events 192 192 color_path
  end.

Definition outline_step (pil : option Rasterizer) : list event :=
  match pil with
  | Some R => [EvSave outline_path (@outline_icon R);
               EvPrint "Outline icon saved: teams-package/outline.png";
               EvPrint "Icons created successfully!"]
  | None => emitter_events 32 32 outline_path ++ [EvPrint "Simple PNG files created"]
  end.

Definition run_trace (pil : option Rasterizer) : list event :=
  prelude pil ++ color_step pil ++ outline_step pil.

(** ** The properties, as the specification words them *)

(** The placeholder layout, field by field: signature, chunk length 13,
    [IHDR], width, height, the five flag bytes, the zero checksum, the
    empty terminal chunk [IEND] and its trailer. *)
Definition is_placeholder_layout (width height : Z) (bs : list Z) : Prop :=
  length bs = 45%nat /\ Forall is_byte bs /\
  slice 0 8 bs = [0x89; 0x50; 0x4E; 0x47; 0x0D; 0x0A; 0x1A; 0x0A] /\
  be_decode (slice 8 12 bs) = 13 /\
  slice 12 16 bs = [0x49; 0x48; 0x44; 0x52] /\
  be_decode (slice 16 20 bs) = width /\
  be_decode (slice 20 24 bs) = height /\
  slice 24 29 bs = [0x08; 0x02; 0x00; 0x00; 0x00] /\
  slice 29 33 bs = [0x00; 0x00; 0x00; 0x00] /\
  be_decode (slice 33 37 bs) = 0 /\
  slice 37 41 bs = [0x49; 0x45; 0x4E; 0x44] /\
  slice 41 45 bs = [0xAE; 0x42; 0x60; 0x82].

(** An image of exactly [width] x [height] pixels, all of mode [m]. *)
Definition is_raster (m : mode) (width height : Z) (im : image) : Prop :=
  im_mode im = m /\ im_size im = (width, height) /\
  length (im_data im) = Z.to_nat height /\
  Forall (fun row => length row = Z.to_nat width /\
                     Forall (fun p => pixel_mode p = m) row) (im_data im).

(** What the two files of the primary path decode to. *)
Definition icons_as_specified (w : world) : Prop :=
  exists color outline,
    files w !! color_path ≫= decode_png = Some color /\
    files w !! outline_path ≫= decode_png = Some outline /\
    is_raster RGB 192 192 color /\
    is_raster RGBA 32 32 outline /\
    getpixel outline 0 0 ≫= alpha = Some 0 /\
    exists x y a, getpixel outline x y ≫= alpha = Some a /\ 0 < a.

(** The last line a path prints. *)
Definition success_notice (pil : option Rasterizer) : string :=
  match pil with
  | Some _ => "Icons created successfully!"
  | None => "Simple PNG files created"
  end.

(** Three file systems: the output directory is there; it is missing;
    it is there but the outline file cannot be opened for writing. *)
Definition ready_world : world := World {["teams-package"]} ∅ ∅ [] [].

Definition bare_world : world := World ∅ ∅ ∅ [] [].

Definition outline_denied_world : world :=
  World {["teams-package"]} {[outline_path]} ∅ [] [].

(** * Properties *)

(** ** The reference rasteriser is a rasteriser *)

Lemma existsb_elem {A} (f : A -> bool) (l : list A) :
  existsb f l = true <-> exists v, v ∈ l /\ f v = true.
Proof.
  rewrite existsb_exists. split; intros (v & Hv & Hf); exists v; split; auto;
    by apply list_elem_of_In.
Qed.

Lemma geo_ellipse_in_box x0 y0 x1 y1 fill width x y :
  geo_ellipse (x0, y0, x1, y1) fill width x y = true ->
  x0 <= x <= x1 /\ y0 <= y <= y1.
Proof.
  unfold geo_ellipse, in_box. intros H.
  repeat (apply andb_prop in H; destruct H as [H ?]). lia.
Qed.

Lemma is_vertex_elem vs x y : is_vertex vs x y = true <-> (x, y) ∈ vs.
Proof.
  unfold is_vertex. rewrite existsb_elem. split.
  - intros ([a b] & Hv & Hf). simpl in Hf.
    apply andb_prop in Hf as [Ha Hb].
    apply Z.eqb_eq in Ha, Hb. by subst.
  - intros Hv. exists (x, y). split; [done|]. simpl. by rewrite !Z.eqb_refl.
Qed.

Lemma in_hull_box_spec vs x y :
  in_hull_box vs x y = true ->
  (exists v, v ∈ vs /\ fst v <= x) /\ (exists v, v ∈ vs /\ x <= fst v) /\
  (exists v, v ∈ vs /\ snd v <= y) /\ (exists v, v ∈ vs /\ y <= snd v).
Proof.
  unfold in_hull_box. intros H.
  apply andb_prop in H as [H H4]. apply andb_prop in H as [H H3].
  apply andb_prop in H as [H1 H2].
  apply existsb_elem in H1 as (v1 & ? & E1), H2 as (v2 & ? & E2),
    H3 as (v3 & ? & E3), H4 as (v4 & ? & E4).
  apply Z.leb_le in E1, E2, E3, E4. naive_solver.
Qed.

Lemma geo_polygon_in_box vs width x y :
  geo_polygon vs true width x y = true ->
  (exists v, v ∈ vs /\ fst v <= x) /\ (exists v, v ∈ vs /\ x <= fst v) /\
  (exists v, v ∈ vs /\ snd v <= y) /\ (exists v, v ∈ vs /\ y <= snd v).
Proof.
  unfold geo_polygon. intros H. apply orb_prop in H as [H | H].
  - apply is_vertex_elem in H.
    repeat split; exists (x, y); simpl; split; (done || lia).
  - simpl in H. apply andb_prop in H as [H _]. by apply in_hull_box_spec.
Qed.

Lemma geo_polygon_vertex vs width x y :
  (x, y) ∈ vs -> geo_polygon vs true width x y = true.
Proof.
  intros H. unfold geo_polygon. apply is_vertex_elem in H. by rewrite H.
Qed.

#[global] Instance geo_rasterizer : Rasterizer := {|
  ellipse_covers := geo_ellipse;
  polygon_covers := geo_polygon;
  ellipse_in_box := geo_ellipse_in_box;
  polygon_in_box := geo_polygon_in_box;
  polygon_vertex := geo_polygon_vertex
|}.

(** ** Stepping through a script fragment *)

Lemma bind_unfold {A B} (m : M A) (k : A -> M B) w :
  (m ≫= k) w = match m w with
               | (Ok a, w') => k a w'
               | (Raise e, w') => (Raise e, w')
               end.
Proof. reflexivity. Qed.

Lemma lift_unfold {A} (r : result A) w : lift r w = (r, w).
Proof. reflexivity. Qed.

Lemma print_unfold s d dn f h t :
  print s (World d dn f h t) = (Ok tt, World d dn f h (t ++ [EvPrint s])).
Proof. reflexivity. Qed.

Lemma can_open_World w f h t p :
  can_open (World (dirs w) (denied w) f h t) p = can_open w p.
Proof. reflexivity. Qed.

Lemma in_u32b_true n : in_u32 n -> in_u32b n = true.
Proof.
  unfold in_u32, in_u32b. intros.
  apply andb_true_intro. split; apply Z.leb_le; lia.
Qed.

Lemma struct_pack_I_ok args :
  Forall in_u32 args -> struct_pack_I args = Ok (concat (map be32 args)).
Proof.
  intros H. unfold struct_pack_I.
  replace (forallb in_u32b args) with true; [done|].
  symmetry. apply forallb_forall. intros x Hx.
  apply in_u32b_true. rewrite Forall_forall in H.
  apply H. by apply list_elem_of_In.
Qed.

Lemma struct_pack_I_dims_error width height :
  ~ (in_u32 width /\ in_u32 height) ->
  struct_pack_I [width; height] = Raise StructError.
Proof.
  intros H. unfold struct_pack_I. simpl.
  destruct (in_u32b width) eqn:Ew; [|done].
  destruct (in_u32b height) eqn:Eh; [|done].
  exfalso. apply H. unfold in_u32b in *.
  apply andb_prop in Ew as [? ?], Eh as [? ?]. unfold in_u32. lia.
Qed.

Ltac solve_u32 :=
  repeat apply Forall_cons_2; try apply Forall_nil_2; unfold in_u32 in *; lia.

(** Closes a goal about concrete lists of lines or paths. *)
Ltac concrete_list :=
  first [ reflexivity | apply (bool_decide_unpack _); vm_compute; reflexivity ].

(** ** Files *)

Lemma open_wb_ok p w :
  can_open w p = true ->
  open_wb p w =
  (Ok p, World (dirs w) (denied w) (<[p := Raw []]> (files w)) (heap w)
           (trace w ++ [EvOpen p])).
Proof. intros H. unfold open_wb. by rewrite H. Qed.

Lemma open_wb_refused p w :
  can_open w p = false -> open_wb p w = (Raise OSError, w).
Proof. intros H. unfold open_wb. by rewrite H. Qed.

Lemma f_write_raw f bs d dn m old h t :
  f_write f bs (World d dn (<[f := Raw old]> m) h t) =
  (Ok tt, World d dn (<[f := Raw (old ++ bs)]> m) h (t ++ [EvWrite f bs])).
Proof.
  unfold f_write, set_files, emit. simpl.
  by rewrite lookup_insert_eq, insert_insert_eq.
Qed.

(** ** The emitter, case by case *)

Lemma create_simple_png_ok width height color p w :
  in_u32 width -> in_u32 height -> can_open w p = true ->
  create_simple_png width height color p w =
  (Ok tt, World (dirs w) (denied w) (<[p := Raw (placeholder width height)]> (files w))
            (heap w) (trace w ++ emitter_events width height p)).
Proof.
  intros Hw Hh Ho. unfold create_simple_png.
  rewrite bind_unfold, (open_wb_ok _ _ Ho).
  rewrite (struct_pack_I_ok [13]), (struct_pack_I_ok [0]),
    (struct_pack_I_ok [width; height]) by solve_u32.
  repeat (rewrite bind_unfold, ?lift_unfold, ?f_write_raw).
  simpl concat. rewrite <- !app_assoc. reflexivity.
Qed.

Lemma create_simple_png_refused width height color p w :
  can_open w p = false ->
  create_simple_png width height color p w = (Raise OSError, w).
Proof.
  intros Ho. unfold create_simple_png.
  by rewrite bind_unfold, (open_wb_refused _ _ Ho).
Qed.

Lemma create_simple_png_dims_error width height color p w :
  ~ (in_u32 width /\ in_u32 height) -> can_open w p = true ->
  create_simple_png width height color p w =
  (Raise StructError,
   World (dirs w) (denied w) (<[p := Raw truncated_placeholder]> (files w)) (heap w)
     (trace w ++ [EvOpen p; EvWrite p png_signature; EvWrite p (be32 13);
                  EvWrite p (b_lit "IHDR")])).
Proof.
  intros Hd Ho. unfold create_simple_png.
  rewrite bind_unfold, (open_wb_ok _ _ Ho).
  rewrite (struct_pack_I_ok [13]) by solve_u32.
  rewrite (struct_pack_I_dims_error _ _ Hd).
  repeat (rewrite bind_unfold, ?lift_unfold, ?f_write_raw).
  simpl concat. rewrite <- !app_assoc. reflexivity.
Qed.

(** ** The fallback path, case by case *)

Lemma fallback_path_ok {A} w :
  can_open w color_path = true -> can_open w outline_path = true ->
  @fallback_path A w =
  (Raise (SystemExit None),
   World (dirs w) (denied w)
     (<[outline_path := Raw (placeholder 32 32)]>
        (<[color_path := Raw (placeholder 192 192)]> (files w)))
     (heap w) (trace w ++ run_trace None)).
Proof.
  intros Hc Ho. unfold fallback_path. destruct w as [d dn f h t].
  rewrite bind_unfold, print_unfold.
  rewrite bind_unfold, create_simple_png_ok by (solve_u32 || exact Hc).
  simpl dirs; simpl denied; simpl files; simpl heap; simpl trace.
  rewrite bind_unfold, create_simple_png_ok by (solve_u32 || exact Ho).
  simpl dirs; simpl denied; simpl files; simpl heap; simpl trace.
  rewrite bind_unfold, print_unfold. unfold exit, raise, run_trace, prelude, color_step, outline_step.
  rewrite <- !app_assoc. reflexivity.
Qed.

Lemma fallback_path_color_refused {A} w :
  can_open w color_path = false ->
  @fallback_path A w =
  (Raise OSError,
   World (dirs w) (denied w) (files w) (heap w)
     (trace w ++ [EvPrint "PIL not available, creating simple files"])).
Proof.
  intros Hc. unfold fallback_path. destruct w as [d dn f h t].
  rewrite bind_unfold, print_unfold.
  by rewrite bind_unfold, create_simple_png_refused.
Qed.

Lemma fallback_path_outline_refused {A} w :
  can_open w color_path = true -> can_open w outline_path = false ->
  @fallback_path A w =
  (Raise OSError,
   World (dirs w) (denied w)
     (<[color_path := Raw (placeholder 192 192)]> (files w)) (heap w)
     (trace w ++ [EvPrint "PIL not available, creating simple files"] ++
      emitter_events 192 192 color_path)).
Proof.
  intros Hc Ho. unfold fallback_path. destruct w as [d dn f h t].
  rewrite bind_unfold, print_unfold.
  rewrite bind_unfold, create_simple_png_ok by (solve_u32 || exact Hc).
  simpl dirs; simpl denied; simpl files; simpl heap; simpl trace.
  rewrite bind_unfold, create_simple_png_refused by exact Ho.
  rewrite <- !app_assoc. reflexivity.
Qed.

(** ** Image objects *)

Lemma Image_new_ok m size c px d dn f h t :
  ink_of m c = Ok px -> 0 <= fst size -> 0 <= snd size ->
  Image_new m size c (World d dn f h t) =
  (Ok (length h), World d dn f (h ++ [blank m size px]) t).
Proof.
  intros Hi Hx Hy. unfold Image_new.
  replace (fst size <? 0) with false by (symmetry; apply Z.ltb_ge; lia).
  replace (snd size <? 0) with false by (symmetry; apply Z.ltb_ge; lia).
  simpl. by rewrite bind_unfold, lift_unfold, Hi.
Qed.

Lemma Draw_unfold r w : ImageDraw_Draw r w = (Ok (Draw r), w).
Proof. reflexivity. Qed.

Section DrawingFacts.
Context {R : Rasterizer}.

Lemma draw_shape_fill covers r c width im px d dn f h t :
  h !! r = Some im -> ink_of (im_mode im) c = Ok px ->
  draw_shape covers (Draw r) (Some c) None width (World d dn f h t) =
  (Ok tt, World d dn f (<[r := paint (covers true 0) px im]> h) t).
Proof.
  intros Hr Hi. unfold draw_shape, deref, update, getink, opt_ink, set_heap.
  rewrite !bind_unfold. simpl. rewrite Hr.
  rewrite bind_unfold, lift_unfold, Hi. simpl.
  rewrite bind_unfold. simpl. by rewrite Hr.
Qed.

Lemma draw_shape_outline covers r c width im px d dn f h t :
  h !! r = Some im -> ink_of (im_mode im) c = Ok px -> width <> 0 ->
  draw_shape covers (Draw r) None (Some c) width (World d dn f h t) =
  (Ok tt, World d dn f (<[r := paint (covers false width) px im]> h) t).
Proof.
  intros Hr Hi Hw. unfold draw_shape, deref, update, getink, opt_ink, set_heap.
  rewrite !bind_unfold. simpl. rewrite Hr.
  rewrite bind_unfold, lift_unfold, Hi. simpl.
  rewrite bind_unfold. simpl.
  replace (width =? 0) with false by (symmetry; by apply Z.eqb_neq).
  simpl. by rewrite Hr.
Qed.

Lemma Image_save_ok r p im w :
  heap w !! r = Some im -> ends_with ".png" p = true -> can_open w p = true ->
  Image_save r p w =
  (Ok tt, World (dirs w) (denied w) (<[p := Png im]> (files w)) (heap w)
            (trace w ++ [EvSave p im])).
Proof.
  intros Hr He Ho. unfold Image_save, deref.
  rewrite bind_unfold, Hr, He. unfold write_png. by rewrite Ho.
Qed.

Lemma Image_save_refused r p im w :
  heap w !! r = Some im -> ends_with ".png" p = true -> can_open w p = false ->
  Image_save r p w = (Raise OSError, w).
Proof.
  intros Hr He Ho. unfold Image_save, deref.
  rewrite bind_unfold, Hr, He. unfold write_png. by rewrite Ho.
Qed.
End DrawingFacts.

(** ** The primary path, case by case *)

Section PrimaryFacts.
Context {R : Rasterizer}.

Ltac fields := cbn [dirs denied files heap trace].

Ltac draw_color_icon :=
  unfold primary_path, ellipse, polygon;
  rewrite bind_unfold, (Image_new_ok _ _ _ (PxRGB 0 120 212))
    by (reflexivity || (simpl; lia));
  rewrite bind_unfold, Draw_unfold;
  do 3 (rewrite bind_unfold; erewrite draw_shape_fill by reflexivity);
  rewrite bind_unfold.

Ltac draw_outline_icon :=
  rewrite bind_unfold, print_unfold;
  rewrite bind_unfold, (Image_new_ok _ _ _ (PxRGBA 0 0 0 0))
    by (reflexivity || (simpl; lia));
  rewrite bind_unfold, Draw_unfold;
  rewrite bind_unfold; erewrite draw_shape_outline by (reflexivity || lia);
  rewrite bind_unfold; erewrite draw_shape_fill by reflexivity;
  rewrite bind_unfold.

Lemma primary_path_ok d dn f t :
  can_open (World d dn f [] t) color_path = true ->
  can_open (World d dn f [] t) outline_path = true ->
  primary_path (World d dn f [] t) =
  (Ok tt,
   World d dn (<[outline_path := Png outline_icon]> (<[color_path := Png color_icon]> f))
     [color_icon; outline_icon] (t ++ run_trace (Some R))).
Proof.
  intros Hc Ho. draw_color_icon.
  erewrite Image_save_ok by (reflexivity || exact Hc). fields.
  draw_outline_icon.
  erewrite Image_save_ok by (reflexivity || exact Ho). fields.
  rewrite !bind_unfold, !print_unfold, <- !app_assoc. reflexivity.
Qed.

Lemma primary_path_color_refused d dn f t :
  can_open (World d dn f [] t) color_path = false ->
  primary_path (World d dn f [] t) = (Raise OSError, World d dn f [color_icon] t).
Proof.
  intros Hc. draw_color_icon.
  erewrite Image_save_refused by (reflexivity || exact Hc). reflexivity.
Qed.

Lemma primary_path_outline_refused d dn f t :
  can_open (World d dn f [] t) color_path = true ->
  can_open (World d dn f [] t) outline_path = false ->
  primary_path (World d dn f [] t) =
  (Raise OSError,
   World d dn (<[color_path := Png color_icon]> f) [color_icon; outline_icon]
     (t ++ [EvSave color_path color_icon;
            EvPrint "Color icon saved: teams-package/color.png"])).
Proof.
  intros Hc Ho. draw_color_icon.
  erewrite Image_save_ok by (reflexivity || exact Hc). fields.
  draw_outline_icon.
  erewrite Image_save_refused by (reflexivity || exact Ho).
  rewrite <- !app_assoc. reflexivity.
Qed.
End PrimaryFacts.

(** ** One run, case by case *)

Lemma run_ok pil w :
  can_open w color_path = true -> can_open w outline_path = true ->
  run pil w =
  (0, World (dirs w) (denied w)
        (<[outline_path := outline_file pil]> (<[color_path := color_file pil]> (files w)))
        (run_heap pil) (run_trace pil)).
Proof.
  intros Hc Ho. unfold run, python_main, script, boot, try_except.
  rewrite bind_unfold. destruct pil as [R|]; simpl import_PIL.
  - unfold ret. rewrite primary_path_ok by assumption. reflexivity.
  - unfold raise. rewrite fallback_path_ok by assumption. reflexivity.
Qed.

Lemma run_color_refused pil w :
  can_open w color_path = false ->
  fst (run pil w) = 1 /\
  dirs (snd (run pil w)) = dirs w /\
  denied (snd (run pil w)) = denied w /\
  files (snd (run pil w)) = files w /\
  trace (snd (run pil w)) = prelude pil ++ [EvTraceback OSError].
Proof.
  intros Hc. unfold run, python_main, script, boot, try_except.
  rewrite bind_unfold. destruct pil as [R|]; simpl import_PIL.
  - unfold ret. by rewrite primary_path_color_refused by assumption.
  - unfold raise. by rewrite fallback_path_color_refused by assumption.
Qed.

Lemma run_outline_refused pil w :
  can_open w color_path = true -> can_open w outline_path = false ->
  fst (run pil w) = 1 /\
  dirs (snd (run pil w)) = dirs w /\
  denied (snd (run pil w)) = denied w /\
  files (snd (run pil w)) = <[color_path := color_file pil]> (files w) /\
  trace (snd (run pil w)) = prelude pil ++ color_step pil ++ [EvTraceback OSError].
Proof.
  intros Hc Ho. unfold run, python_main, script, boot, try_except.
  rewrite bind_unfold. destruct pil as [R|]; simpl import_PIL.
  - unfold ret. by rewrite primary_path_outline_refused by assumption.
  - unfold raise. by rewrite fallback_path_outline_refused by assumption.
Qed.

(** A run ends with status 0 exactly when both files could be opened. *)
Lemma run_success_iff pil w :
  fst (run pil w) = 0 <->
  can_open w color_path = true /\ can_open w outline_path = true.
Proof.
  split.
  - intros H. destruct (can_open w color_path) eqn:Hc.
    + destruct (can_open w outline_path) eqn:Ho; [done|].
      destruct (run_outline_refused pil w Hc Ho) as [E _]. rewrite E in H. lia.
    + destruct (run_color_refused pil w Hc) as [E _]. rewrite E in H. lia.
  - intros [Hc Ho]. by rewrite run_ok.
Qed.

(** ** Big-endian fields *)

Lemma land_255 x : Z.land x 255 = x mod 256.
Proof. change 255 with (Z.ones 8). by rewrite Z.land_ones by lia. Qed.

Lemma be32_bytes n : Forall is_byte (be32 n).
Proof.
  unfold be32, is_byte. rewrite !land_255.
  repeat apply Forall_cons_2; try apply Forall_nil_2; apply Z.mod_pos_bound; lia.
Qed.

Lemma be32_decode n : in_u32 n -> be_decode (be32 n) = n.
Proof.
  unfold in_u32, be_decode, be32. intros H. simpl.
  rewrite !land_255, !Z.shiftr_div_pow2 by lia.
  change (2 ^ 24) with 16777216. change (2 ^ 16) with 65536. change (2 ^ 8) with 256.
  Z.div_mod_to_equations. lia.
Qed.

Lemma placeholder_layout width height :
  in_u32 width -> in_u32 height ->
  is_placeholder_layout width height (placeholder width height).
Proof.
  intros Hw Hh. unfold is_placeholder_layout.
  split; [reflexivity|]. split.
  { unfold placeholder. repeat (apply Forall_app_2); try apply be32_bytes;
      (apply (bool_decide_unpack _); vm_compute; reflexivity) ||
      (repeat apply Forall_cons_2; try apply Forall_nil_2; unfold is_byte; simpl; lia). }
  pose proof (be32_decode width Hw) as Dw.
  pose proof (be32_decode height Hh) as Dh.
  repeat split; try reflexivity; assumption.
Qed.

(** ** The script on a ready directory *)

Example placeholder_192 :
  placeholder 192 192 =
  [0x89; 0x50; 0x4E; 0x47; 0x0D; 0x0A; 0x1A; 0x0A;
   0; 0; 0; 13; 0x49; 0x48; 0x44; 0x52;
   0; 0; 0; 192; 0; 0; 0; 192; 8; 2; 0; 0; 0;
   0; 0; 0; 0;
   0; 0; 0; 0; 0x49; 0x45; 0x4E; 0x44; 0xAE; 0x42; 0x60; 0x82].
Proof. reflexivity. Qed.

Example outline_width_field : be_decode (slice 16 20 (placeholder 32 32)) = 32.
Proof. reflexivity. Qed.

Example fallback_prints :
  run None ready_world =
  (0, World {["teams-package"]} ∅
        (<[outline_path := Raw (placeholder 32 32)]>
           (<[color_path := Raw (placeholder 192 192)]> ∅))
        [] (run_trace None)) /\
  stdout (snd (run None ready_world)) =
  ["PIL not available, creating simple files"; "Simple PNG files created"].
Proof. split; [by apply run_ok | vm_compute; reflexivity]. Qed.

Example primary_prints :
  stdout (snd (run (Some geo_rasterizer) ready_world)) =
  ["Color icon saved: teams-package/color.png";
   "Outline icon saved: teams-package/outline.png";
   "Icons created successfully!"].
Proof. vm_compute. reflexivity. Qed.

Example missing_directory :
  fst (run None bare_world) = 1 /\ fst (run (Some geo_rasterizer) bare_world) = 1.
Proof. split; vm_compute; reflexivity. Qed.

(** ** The fallback emitter *)

(** C1, as stated for every width, height and path, fails.  With a width
    of 2^32 the call raises [struct.error] and the file holds 16 bytes,
    not the layout; and with the directory [teams-package] missing the
    call raises [OSError] and there is no file at the path. *)
Lemma create_simple_png_layout_not_total :
  (~ exists bs,
       files (snd (create_simple_png 4294967296 192 (0, 120, 212) color_path ready_world))
         !! color_path = Some (Raw bs) /\
       is_placeholder_layout 4294967296 192 bs) /\
  (~ exists bs,
       files (snd (create_simple_png 192 192 (0, 120, 212) color_path bare_world))
         !! color_path = Some (Raw bs) /\
       is_placeholder_layout 192 192 bs).
Proof.
  split.
  - intros (bs & E & L & _).
    assert (files (snd (create_simple_png 4294967296 192 (0, 120, 212) color_path
                          ready_world)) !! color_path
            = Some (Raw truncated_placeholder)) as E' by (vm_compute; reflexivity).
    rewrite E' in E. injection E as <-. discriminate L.
  - intros (bs & E & _).
    rewrite create_simple_png_refused in E by (vm_compute; reflexivity).
    discriminate E.
Qed.

(** C1, amended.  For a width and a height in 0..2^32-1 and a path that
    can be opened for writing, the emitter returns normally and the file
    holds exactly the 45-byte layout: the signature 89 50 4E 47 0D 0A 1A
    0A, the length 13, [IHDR], the width and the height big-endian (bytes
    16-19 and 20-23 decode to them), 08 02 00 00 00, a zero checksum, the
    length 0, [IEND] and AE 42 60 82. *)
Theorem create_simple_png_layout width height color path w :
  in_u32 width -> in_u32 height -> can_open w path = true ->
  exists bs,
    fst (create_simple_png width height color path w) = Ok tt /\
    files (snd (create_simple_png width height color path w)) !! path = Some (Raw bs) /\
    is_placeholder_layout width height bs.
Proof.
  intros Hw Hh Ho. exists (placeholder width height).
  rewrite create_simple_png_ok by assumption. simpl.
  split; [reflexivity|]. split.
  - apply lookup_insert_eq.
  - by apply placeholder_layout.
Qed.

Lemma create_simple_png_layout_witness :
  exists bs,
    fst (create_simple_png 192 192 (0, 120, 212) color_path ready_world) = Ok tt /\
    files (snd (create_simple_png 192 192 (0, 120, 212) color_path ready_world))
      !! color_path = Some (Raw bs) /\
    is_placeholder_layout 192 192 bs.
Proof.
  apply (create_simple_png_layout 192 192 (0, 120, 212) color_path ready_world).
  - unfold in_u32. lia.
  - unfold in_u32. lia.
  - vm_compute. reflexivity.
Defined.

(** C3, as stated, fails.  A width that does not fit the 4-byte field
    makes [struct.pack] raise once the first 16 bytes are written; and
    with the arguments of the script itself, [open] raises when the
    directory [teams-package] is missing. *)
Lemma create_simple_png_can_raise :
  (fst (create_simple_png 4294967296 192 (0, 120, 212) color_path ready_world)
     = Raise StructError /\
   files (snd (create_simple_png 4294967296 192 (0, 120, 212) color_path ready_world))
     !! color_path = Some (Raw truncated_placeholder)) /\
  create_simple_png 192 192 (0, 120, 212) color_path bare_world
    = (Raise OSError, bare_world).
Proof.
  split; [split; vm_compute; reflexivity|].
  apply create_simple_png_refused. vm_compute. reflexivity.
Qed.

(** C3, amended.  For a width and a height in 0..2^32-1 and a path that
    can be opened for writing, the emitter succeeds: it returns normally
    and has written its output file. *)
Theorem create_simple_png_succeeds width height color path w :
  in_u32 width -> in_u32 height -> can_open w path = true ->
  fst (create_simple_png width height color path w) = Ok tt /\
  files (snd (create_simple_png width height color path w)) !! path
    = Some (Raw (placeholder width height)).
Proof.
  intros Hw Hh Ho. rewrite create_simple_png_ok by assumption. simpl.
  split; [reflexivity | apply lookup_insert_eq].
Qed.

Lemma create_simple_png_succeeds_witness :
  fst (create_simple_png 32 32 (255, 255, 255) outline_path ready_world) = Ok tt /\
  files (snd (create_simple_png 32 32 (255, 255, 255) outline_path ready_world))
    !! outline_path = Some (Raw (placeholder 32 32)).
Proof.
  apply (create_simple_png_succeeds 32 32 (255, 255, 255) outline_path ready_world).
  - unfold in_u32. lia.
  - unfold in_u32. lia.
  - vm_compute. reflexivity.
Defined.

(** The emitter returns normally in exactly these cases. *)
Lemma create_simple_png_succeeds_iff width height color path w :
  fst (create_simple_png width height color path w) = Ok tt <->
  can_open w path = true /\ in_u32 width /\ in_u32 height.
Proof.
  split.
  - intros H. destruct (can_open w path) eqn:Ho.
    + destruct (decide (in_u32 width /\ in_u32 height)) as [[? ?]|Hd]; [done|].
      rewrite create_simple_png_dims_error in H by assumption. discriminate.
    + rewrite create_simple_png_refused in H by assumption. discriminate.
  - intros (Ho & Hw & Hh). by rewrite create_simple_png_ok.
Qed.



(** ** Rasters *)

Lemma blank_raster m width height px :
  pixel_mode px = m -> 0 <= width -> 0 <= height ->
  is_raster m width height (blank m (width, height) px).
Proof.
  intros Hp Hw Hh. unfold is_raster, blank. simpl.
  repeat split.
  - apply length_replicate.
  - apply Forall_replicate. split.
    + apply length_replicate.
    + by apply Forall_replicate.
Qed.

Lemma paint_raster m width height covers ink im :
  pixel_mode ink = m -> is_raster m width height im ->
  is_raster m width height (paint covers ink im).
Proof.
  intros Hi (Hm & Hs & Hl & Hr). unfold is_raster, paint. simpl.
  repeat split; try assumption.
  - by rewrite length_imap.
  - apply Forall_lookup_2. intros y row' Hy.
    rewrite list_lookup_imap in Hy.
    destruct (im_data im !! y) as [row|] eqn:Erow; [|discriminate].
    simpl in Hy. injection Hy as <-.
    pose proof (Forall_lookup_1 _ _ _ _ Hr Erow) as [Hlen Hpx].
    split.
    + by rewrite length_imap.
    + apply Forall_lookup_2. intros x p Hx.
      rewrite list_lookup_imap in Hx.
      destruct (row !! x) as [q|] eqn:Eq; [|discriminate].
      simpl in Hx. injection Hx as <-.
      destruct (covers _ _); [done|].
      exact (Forall_lookup_1 _ _ _ _ Hpx Eq).
Qed.

Lemma getpixel_blank m width height px x y :
  0 <= x < width -> 0 <= y < height ->
  getpixel (blank m (width, height) px) x y = Some px.
Proof.
  intros Hx Hy. unfold getpixel, blank. simpl.
  replace (0 <=? x) with true by (symmetry; apply Z.leb_le; lia).
  replace (0 <=? y) with true by (symmetry; apply Z.leb_le; lia).
  simpl. rewrite lookup_replicate_2 by lia. simpl.
  apply lookup_replicate_2. lia.
Qed.

Lemma getpixel_paint covers ink im x y :
  getpixel (paint covers ink im) x y =
  (fun p => if covers x y then ink else p) <$> getpixel im x y.
Proof.
  unfold getpixel, paint. simpl.
  destruct (0 <=? x) eqn:Ex; [|done].
  destruct (0 <=? y) eqn:Ey; [|done].
  apply Z.leb_le in Ex, Ey. simpl.
  rewrite list_lookup_imap.
  destruct (im_data im !! Z.to_nat y) as [row|]; [|done]. simpl.
  rewrite list_lookup_imap, !Z2Nat.id by lia. done.
Qed.

Section IconFacts.
Context {R : Rasterizer}.

Lemma color_icon_raster : is_raster RGB 192 192 color_icon.
Proof.
  unfold color_icon.
  repeat (apply paint_raster; [reflexivity|]).
  apply blank_raster; [reflexivity | lia | lia].
Qed.

Lemma outline_icon_raster : is_raster RGBA 32 32 outline_icon.
Proof.
  unfold outline_icon.
  repeat (apply paint_raster; [reflexivity|]).
  apply blank_raster; [reflexivity | lia | lia].
Qed.

(** No shape of the outline icon reaches the corner. *)
Lemma outline_icon_corner : getpixel outline_icon 0 0 = Some (PxRGBA 0 0 0 0).
Proof.
  unfold outline_icon. rewrite !getpixel_paint, getpixel_blank by lia. simpl.
  destruct (polygon_covers _ true 0 0 0) eqn:Ep.
  { apply polygon_in_box in Ep as ((v & Hv & Hle) & _).
    repeat (apply elem_of_cons in Hv as [-> | Hv]; [simpl in Hle; lia|]).
    by apply elem_of_nil in Hv. }
  destruct (ellipse_covers _ false 2 0 0) eqn:Ee; [|done].
  apply ellipse_in_box in Ee. lia.
Qed.

(** The tip of the pin is drawn and opaque. *)
Lemma outline_icon_tip : getpixel outline_icon 16 16 = Some (PxRGBA 255 255 255 255).
Proof.
  unfold outline_icon. rewrite !getpixel_paint, getpixel_blank by lia. simpl.
  rewrite polygon_vertex; [done|]. apply elem_of_cons. by left.
Qed.
End IconFacts.

(** ** The two files of a run *)

Lemma paths_differ : color_path <> outline_path.
Proof. discriminate. Qed.

Lemma files_after_run pil (f : gmap string content) :
  <[outline_path := outline_file pil]> (<[color_path := color_file pil]> f) !! color_path
    = Some (color_file pil) /\
  <[outline_path := outline_file pil]> (<[color_path := color_file pil]> f) !! outline_path
    = Some (outline_file pil).
Proof.
  split.
  - rewrite lookup_insert_ne by (intros E; symmetry in E; exact (paths_differ E)).
    apply lookup_insert_eq.
  - apply lookup_insert_eq.
Qed.

Lemma files_written_twice pil (f : gmap string content) :
  <[outline_path := outline_file pil]>
    (<[color_path := color_file pil]>
       (<[outline_path := outline_file pil]> (<[color_path := color_file pil]> f)))
  = <[outline_path := outline_file pil]> (<[color_path := color_file pil]> f).
Proof.
  apply map_eq. intros k. rewrite !lookup_insert.
  repeat case_decide; done.
Qed.

Lemma no_directory_refuses w p :
  "teams-package" ∉ dirs w -> p = color_path \/ p = outline_path ->
  can_open w p = false.
Proof.
  intros Hd [-> | ->]; unfold can_open, parent_exists; simpl;
    by rewrite (bool_decide_eq_false_2 _ Hd).
Qed.

(** C2.  After a successful run of the primary path the color file
    decodes to exactly 192x192 pixels without alpha (RGB); the outline
    file decodes to exactly 32x32 pixels with alpha (RGBA), its corner
    pixel (0,0) has alpha 0 and some pixel has alpha above 0. *)
Theorem primary_icons_decode (R : Rasterizer) w :
  fst (run (Some R) w) = 0 -> icons_as_specified (snd (run (Some R) w)).
Proof.
  intros H. apply run_success_iff in H as [Hc Ho].
  rewrite run_ok by assumption. unfold icons_as_specified.
  destruct (files_after_run (Some R) (files w)) as [Ec Eo].
  exists color_icon, outline_icon.
  cbn [snd files]. rewrite Ec, Eo.
  split; [reflexivity|]. split; [reflexivity|].
  split; [apply color_icon_raster|]. split; [apply outline_icon_raster|].
  split.
  - by rewrite outline_icon_corner.
  - exists 16, 16, 255. rewrite outline_icon_tip. simpl. split; [done | lia].
Qed.

Lemma primary_icons_decode_witness :
  fst (run (Some geo_rasterizer) ready_world) = 0 /\
  icons_as_specified (snd (run (Some geo_rasterizer) ready_world)).
Proof.
  assert (fst (run (Some geo_rasterizer) ready_world) = 0) as H.
  { apply run_success_iff. split; vm_compute; reflexivity. }
  split; [exact H|].
  apply (primary_icons_decode geo_rasterizer ready_world). exact H.
Defined.

(** C4.  On both execution paths, after a successful run both output
    files exist at [teams-package/color.png] and
    [teams-package/outline.png], holding what this run wrote. *)
Theorem both_files_exist pil w :
  fst (run pil w) = 0 ->
  files (snd (run pil w)) !! color_path = Some (color_file pil) /\
  files (snd (run pil w)) !! outline_path = Some (outline_file pil).
Proof.
  intros H. apply run_success_iff in H as [Hc Ho].
  rewrite run_ok by assumption. apply files_after_run.
Qed.

Lemma both_files_exist_witness :
  (files (snd (run None ready_world)) !! color_path = Some (Raw (placeholder 192 192)) /\
   files (snd (run None ready_world)) !! outline_path = Some (Raw (placeholder 32 32))) /\
  (files (snd (run (Some geo_rasterizer) ready_world)) !! color_path
     = Some (Png color_icon) /\
   files (snd (run (Some geo_rasterizer) ready_world)) !! outline_path
     = Some (Png outline_icon)).
Proof.
  split.
  - apply (both_files_exist None ready_world).
    apply run_success_iff. split; vm_compute; reflexivity.
  - apply (both_files_exist (Some geo_rasterizer) ready_world).
    apply run_success_iff. split; vm_compute; reflexivity.
Defined.

(** C5.  A second run right after a successful one succeeds too and leaves
    the same files (byte for byte in the fallback path, pixel for pixel in
    the primary path) and the same events; and whatever the earlier state
    of the file system, a successful run writes the same two files. *)
Theorem run_twice_identical pil w :
  fst (run pil w) = 0 ->
  fst (run pil (snd (run pil w))) = 0 /\
  files (snd (run pil (snd (run pil w)))) = files (snd (run pil w)) /\
  trace (snd (run pil (snd (run pil w)))) = trace (snd (run pil w)) /\
  forall w', fst (run pil w') = 0 ->
    files (snd (run pil w')) !! color_path = files (snd (run pil w)) !! color_path /\
    files (snd (run pil w')) !! outline_path = files (snd (run pil w)) !! outline_path.
Proof.
  intros H. apply run_success_iff in H as [Hc Ho].
  rewrite (run_ok pil w) by assumption. simpl snd.
  rewrite run_ok by (rewrite can_open_World; assumption).
  simpl. repeat split.
  - apply files_written_twice.
  - apply run_success_iff in H as [Hc' Ho']. rewrite run_ok by assumption.
    simpl. destruct (files_after_run pil (files w')) as [-> _].
    by destruct (files_after_run pil (files w)) as [-> _].
  - apply run_success_iff in H as [Hc' Ho']. rewrite run_ok by assumption.
    simpl. destruct (files_after_run pil (files w')) as [_ ->].
    by destruct (files_after_run pil (files w)) as [_ ->].
Qed.

Lemma run_twice_identical_witness :
  fst (run None ready_world) = 0 /\
  fst (run None (snd (run None ready_world))) = 0 /\
  files (snd (run None (snd (run None ready_world)))) = files (snd (run None ready_world)) /\
  files (snd (run (Some geo_rasterizer) (snd (run (Some geo_rasterizer) ready_world))))
    = files (snd (run (Some geo_rasterizer) ready_world)).
Proof.
  assert (fst (run None ready_world) = 0) as H0.
  { apply run_success_iff. split; vm_compute; reflexivity. }
  assert (fst (run (Some geo_rasterizer) ready_world) = 0) as H1.
  { apply run_success_iff. split; vm_compute; reflexivity. }
  destruct (run_twice_identical None ready_world H0) as (E0 & F0 & _).
  destruct (run_twice_identical (Some geo_rasterizer) ready_world H1) as (_ & F1 & _).
  repeat split; assumption.
Defined.

(** ** Order, failure and exit status *)

(** C6.  In every run, on either path, the file operations on the color
    file all come before those on the outline file; and a run that
    completes has performed both, in that order, and left both files. *)
Theorem color_before_outline pil w :
  exists n m,
    touched (trace (snd (run pil w)))
      = replicate n color_path ++ replicate m outline_path /\
    (fst (run pil w) = 0 ->
     (0 < n)%nat /\ (0 < m)%nat /\
     trace (snd (run pil w)) = prelude pil ++ color_step pil ++ outline_step pil /\
     files (snd (run pil w)) !! color_path = Some (color_file pil) /\
     files (snd (run pil w)) !! outline_path = Some (outline_file pil)).
Proof.
  destruct (can_open w color_path) eqn:Hc;
    [destruct (can_open w outline_path) eqn:Ho|].
  - rewrite run_ok by assumption. cbn [fst snd trace files].
    destruct (files_after_run pil (files w)) as [Ec Eo].
    destruct pil as [R|].
    + exists 1%nat, 1%nat. split; [reflexivity|]. intros _.
      repeat split; (lia || assumption).
    + exists 10%nat, 10%nat. split; [reflexivity|]. intros _.
      repeat split; (lia || assumption).
  - destruct (run_outline_refused pil w Hc Ho) as (E & _ & _ & _ & Et).
    rewrite Et, E. destruct pil as [R|].
    + exists 1%nat, 0%nat. split; [reflexivity | intros; lia].
    + exists 10%nat, 0%nat. split; [reflexivity | intros; lia].
  - destruct (run_color_refused pil w Hc) as (E & _ & _ & _ & Et).
    rewrite Et, E. exists 0%nat, 0%nat.
    split; [by destruct pil | intros; lia].
Qed.

Lemma color_before_outline_witness :
  exists n m,
    touched (trace (snd (run (Some geo_rasterizer) ready_world)))
      = replicate n color_path ++ replicate m outline_path /\
    (0 < n)%nat /\ (0 < m)%nat.
Proof.
  destruct (color_before_outline (Some geo_rasterizer) ready_world) as (n & m & E & S).
  exists n, m. split; [exact E|].
  assert (fst (run (Some geo_rasterizer) ready_world) = 0) as H.
  { apply run_success_iff. split; vm_compute; reflexivity. }
  destruct (S H) as (Hn & Hm & _). split; assumption.
Defined.

(** C7.  In the primary path, when a file cannot be opened (the directory
    [teams-package] is missing, or a path is unwritable), the error is not
    caught: it reaches the process boundary and the exit status is 1.  No
    directory is created and success is not reported; with the directory
    missing nothing is printed and no file changes. *)
Theorem primary_failure_not_caught (R : Rasterizer) w :
  can_open w color_path = false \/ can_open w outline_path = false ->
  fst (run (Some R) w) = 1 /\
  last (trace (snd (run (Some R) w))) = Some (EvTraceback OSError) /\
  dirs (snd (run (Some R) w)) = dirs w /\
  ("Icons created successfully!" ∉ stdout (snd (run (Some R) w))) /\
  ("Outline icon saved: teams-package/outline.png" ∉ stdout (snd (run (Some R) w))) /\
  ("teams-package" ∉ dirs w ->
   stdout (snd (run (Some R) w)) = [] /\ files (snd (run (Some R) w)) = files w).
Proof.
  intros H. destruct (can_open w color_path) eqn:Hc.
  - destruct H as [H | Ho]; [discriminate|].
    destruct (run_outline_refused (Some R) w Hc Ho) as (E & Ed & _ & Ef & Et).
    unfold stdout. rewrite E, Ed, Et. simpl.
    repeat split; try concrete_list;
      match goal with
      | Hd : _ ∉ dirs w |- _ =>
          rewrite (no_directory_refuses w color_path Hd) in Hc by auto; discriminate
      end.
  - destruct (run_color_refused (Some R) w Hc) as (E & Ed & _ & Ef & Et).
    unfold stdout. rewrite E, Ed, Ef, Et. simpl.
    repeat split; concrete_list.
Qed.

Lemma primary_failure_not_caught_witness :
  fst (run (Some geo_rasterizer) bare_world) = 1 /\
  last (trace (snd (run (Some geo_rasterizer) bare_world))) = Some (EvTraceback OSError) /\
  dirs (snd (run (Some geo_rasterizer) bare_world)) = dirs bare_world /\
  stdout (snd (run (Some geo_rasterizer) bare_world)) = [] /\
  files (snd (run (Some geo_rasterizer) bare_world)) = files bare_world.
Proof.
  destruct (primary_failure_not_caught geo_rasterizer bare_world)
    as (E & Et & Ed & _ & _ & Hn).
  { left. vm_compute. reflexivity. }
  destruct Hn as [Hs Hf].
  { simpl. apply not_elem_of_empty. }
  repeat split; assumption.
Defined.

(** C8.  There is no rollback: when the second (outline) file cannot be
    written after the first (color) file has been, the run fails and the
    color file keeps its newly written content. *)
Theorem color_file_survives pil w :
  can_open w color_path = true -> can_open w outline_path = false ->
  fst (run pil w) = 1 /\
  files (snd (run pil w)) !! color_path = Some (color_file pil) /\
  files (snd (run pil w)) !! outline_path = files w !! outline_path.
Proof.
  intros Hc Ho.
  destruct (run_outline_refused pil w Hc Ho) as (E & _ & _ & Ef & _).
  rewrite E, Ef. split; [reflexivity|]. split.
  - apply lookup_insert_eq.
  - apply lookup_insert_ne, paths_differ.
Qed.

Lemma color_file_survives_witness :
  (fst (run None outline_denied_world) = 1 /\
   files (snd (run None outline_denied_world)) !! color_path
     = Some (Raw (placeholder 192 192)) /\
   files (snd (run None outline_denied_world)) !! outline_path = None) /\
  (fst (run (Some geo_rasterizer) outline_denied_world) = 1 /\
   files (snd (run (Some geo_rasterizer) outline_denied_world)) !! color_path
     = Some (Png color_icon) /\
   files (snd (run (Some geo_rasterizer) outline_denied_world)) !! outline_path = None).
Proof.
  split.
  - apply (color_file_survives None outline_denied_world); vm_compute; reflexivity.
  - apply (color_file_survives (Some geo_rasterizer) outline_denied_world);
      vm_compute; reflexivity.
Defined.

Lemma script_ok pil w :
  can_open w color_path = true -> can_open w outline_path = true ->
  fst (script pil (boot w)) =
  match pil with
  | Some _ => Ok tt
  | None => Raise (SystemExit None)
  end.
Proof.
  intros Hc Ho. unfold script, boot, try_except.
  rewrite bind_unfold. destruct pil as [R|]; simpl import_PIL.
  - unfold ret. by rewrite primary_path_ok by assumption.
  - unfold raise. by rewrite fallback_path_ok by assumption.
Qed.

(** C9.  Once its two files are written the fallback path leaves through
    an explicit [exit()], which ends the process with status 0; the
    primary path runs to the end of the script, also with status 0. *)
Theorem normal_completion_status w :
  can_open w color_path = true -> can_open w outline_path = true ->
  fst (script None (boot w)) = Raise (SystemExit None) /\
  fst (run None w) = 0 /\
  files (snd (run None w)) !! color_path = Some (Raw (placeholder 192 192)) /\
  files (snd (run None w)) !! outline_path = Some (Raw (placeholder 32 32)) /\
  last (trace (snd (run None w))) = Some (EvPrint "Simple PNG files created") /\
  forall R : Rasterizer,
    fst (script (Some R) (boot w)) = Ok tt /\ fst (run (Some R) w) = 0.
Proof.
  intros Hc Ho.
  split; [exact (script_ok None w Hc Ho)|].
  rewrite (run_ok None) by assumption.
  destruct (files_after_run None (files w)) as [Ec Eo].
  repeat split; try assumption; try reflexivity.
  - exact (script_ok (Some R) w Hc Ho).
  - by rewrite run_ok.
Qed.

Lemma normal_completion_status_witness :
  fst (script None (boot ready_world)) = Raise (SystemExit None) /\
  fst (run None ready_world) = 0 /\
  fst (script (Some geo_rasterizer) (boot ready_world)) = Ok tt /\
  fst (run (Some geo_rasterizer) ready_world) = 0.
Proof.
  destruct (normal_completion_status ready_world) as (E1 & E2 & _ & _ & _ & EP).
  { vm_compute. reflexivity. }
  { vm_compute. reflexivity. }
  destruct (EP geo_rasterizer) as [E3 E4].
  repeat split; assumption.
Defined.

(** * Further properties of the script *)

(** ** [struct.pack] and the emitter at its edges *)

Lemma be32_length n : length (be32 n) = 4%nat.
Proof. reflexivity. Qed.

Lemma struct_pack_I_error args :
  ~ Forall in_u32 args -> struct_pack_I args = Raise StructError.
Proof.
  intros H. unfold struct_pack_I.
  destruct (forallb in_u32b args) eqn:E; [|done].
  exfalso. apply H. apply Forall_forall. intros n Hn.
  rewrite forallb_forall in E. apply list_elem_of_In, E in Hn.
  unfold in_u32b in Hn. apply andb_prop in Hn as [? ?]. unfold in_u32. lia.
Qed.

Lemma packed_field args : forall i n,
  Forall in_u32 args -> args !! i = Some n ->
  be_decode (slice (4 * i) (4 * i + 4) (concat (map be32 args))) = n.
Proof.
  induction args as [|a args IH]; intros i n Hall Hi; [done|].
  apply Forall_cons in Hall as [Ha Hall].
  destruct i as [|i].
  - injection Hi as ->. rewrite <- (be32_decode n) at 2 by assumption. reflexivity.
  - simpl in Hi. rewrite <- (IH i n Hall Hi).
    replace (4 * S i)%nat with (4 + 4 * i)%nat by lia.
    unfold slice.
    replace (4 + 4 * i + 4 - (4 + 4 * i))%nat with (4 * i + 4 - 4 * i)%nat by lia.
    reflexivity.
Qed.

(** X1.  [struct.pack('>I...I', *args)] either packs every argument or
    none: when all arguments are in 0..2^32-1 the result has four bytes
    per argument and the i-th group decodes big-endian to the i-th
    argument; otherwise it raises [struct.error]. *)
Theorem struct_pack_I_round_trip args :
  (Forall in_u32 args ->
   exists bs, struct_pack_I args = Ok bs /\
     length bs = (4 * length args)%nat /\ Forall is_byte bs /\
     forall i n, args !! i = Some n ->
       be_decode (slice (4 * i) (4 * i + 4) bs) = n) /\
  (~ Forall in_u32 args -> struct_pack_I args = Raise StructError).
Proof.
  split; [|apply struct_pack_I_error].
  intros Hall. exists (concat (map be32 args)).
  split; [by apply struct_pack_I_ok|]. split; [|split].
  - clear Hall. induction args as [|a args IH]; [done|].
    change (concat (map be32 (a :: args))) with (be32 a ++ concat (map be32 args)).
    rewrite length_app, IH, be32_length. simpl. lia.
  - clear Hall. induction args as [|a args IH]; [constructor|].
    change (concat (map be32 (a :: args))) with (be32 a ++ concat (map be32 args)).
    apply Forall_app_2; [apply be32_bytes | exact IH].
  - intros i n Hi. by apply packed_field.
Qed.

Lemma truncated_is_prefix width height :
  truncated_placeholder = take 16 (placeholder width height).
Proof. reflexivity. Qed.

(** X2.  Every call of the emitter ends in one of three ways.  The path
    cannot be opened: [OSError], and nothing at all has changed.  A
    dimension is outside 0..2^32-1: [struct.error], and the file holds
    the first 16 bytes of the layout.  Otherwise: normal return, and the
    file holds the 45-byte layout. *)
Theorem create_simple_png_outcomes width height color path w :
  (can_open w path = false /\
   create_simple_png width height color path w = (Raise OSError, w)) \/
  (can_open w path = true /\ ~ (in_u32 width /\ in_u32 height) /\
   fst (create_simple_png width height color path w) = Raise StructError /\
   files (snd (create_simple_png width height color path w)) !! path
     = Some (Raw (take 16 (placeholder width height)))) \/
  (can_open w path = true /\ in_u32 width /\ in_u32 height /\
   fst (create_simple_png width height color path w) = Ok tt /\
   files (snd (create_simple_png width height color path w)) !! path
     = Some (Raw (placeholder width height))).
Proof.
  destruct (can_open w path) eqn:Ho.
  - right. destruct (decide (in_u32 width /\ in_u32 height)) as [[Hw Hh]|Hd].
    + right. rewrite create_simple_png_ok by assumption. simpl.
      by rewrite lookup_insert_eq.
    + left. rewrite create_simple_png_dims_error by assumption. simpl.
      rewrite lookup_insert_eq, (truncated_is_prefix width height). done.
  - left. by rewrite create_simple_png_refused.
Qed.

(** X3.  Whatever its outcome, a call of the emitter touches nothing but
    the file at its path: every other file, the directories, the access
    rights and the image objects stay as they were, and every file
    operation it performs is on that path. *)
Theorem create_simple_png_frame width height color path w :
  delete path (files (snd (create_simple_png width height color path w)))
    = delete path (files w) /\
  dirs (snd (create_simple_png width height color path w)) = dirs w /\
  denied (snd (create_simple_png width height color path w)) = denied w /\
  heap (snd (create_simple_png width height color path w)) = heap w /\
  exists evs,
    trace (snd (create_simple_png width height color path w)) = trace w ++ evs /\
    Forall (fun p => p = path) (touched evs).
Proof.
  destruct (can_open w path) eqn:Ho.
  - destruct (decide (in_u32 width /\ in_u32 height)) as [[Hw Hh]|Hd].
    + rewrite create_simple_png_ok by assumption. simpl.
      rewrite delete_insert_eq. repeat split. eexists. split; [reflexivity|].
      simpl. repeat constructor.
    + rewrite create_simple_png_dims_error by assumption. simpl.
      rewrite delete_insert_eq. repeat split. eexists. split; [reflexivity|].
      simpl. repeat constructor.
  - rewrite create_simple_png_refused by assumption. simpl.
    repeat split. exists []. split; [by rewrite app_nil_r | constructor].
Qed.

(** X4.  A call of the emitter overwrites: after two calls on the same
    path the file holds the layout of the second call only, whatever the
    first call wrote or however it ended. *)
Theorem create_simple_png_overwrites w1 h1 c1 w2 h2 c2 path w :
  in_u32 w2 -> in_u32 h2 -> can_open w path = true ->
  files (snd (create_simple_png w2 h2 c2 path
                (snd (create_simple_png w1 h1 c1 path w))))
    = <[path := Raw (placeholder w2 h2)]> (files w) /\
  fst (create_simple_png w2 h2 c2 path (snd (create_simple_png w1 h1 c1 path w)))
    = Ok tt.
Proof.
  intros Hw Hh Ho.
  destruct (decide (in_u32 w1 /\ in_u32 h1)) as [[Hw1 Hh1]|Hd].
  - rewrite (create_simple_png_ok w1 h1) by assumption. simpl snd.
    rewrite create_simple_png_ok by assumption. simpl.
    by rewrite insert_insert_eq.
  - rewrite (create_simple_png_dims_error w1 h1) by assumption. simpl snd.
    rewrite create_simple_png_ok by assumption. simpl.
    by rewrite insert_insert_eq.
Qed.

Lemma create_simple_png_overwrites_witness :
  files (snd (create_simple_png 32 32 (255, 255, 255) color_path
                (snd (create_simple_png 4294967296 7 (0, 0, 0) color_path ready_world))))
    = <[color_path := Raw (placeholder 32 32)]> (files ready_world) /\
  fst (create_simple_png 32 32 (255, 255, 255) color_path
         (snd (create_simple_png 4294967296 7 (0, 0, 0) color_path ready_world)))
    = Ok tt.
Proof.
  apply (create_simple_png_overwrites 4294967296 7 (0, 0, 0) 32 32 (255, 255, 255)
           color_path ready_world).
  - unfold in_u32. lia.
  - unfold in_u32. lia.
  - vm_compute. reflexivity.
Defined.

(** X5.  The file tells the dimensions: two calls that return normally
    and leave the same bytes were given the same width and height. *)
Theorem create_simple_png_injective w1 h1 c1 p1 wd1 w2 h2 c2 p2 wd2 :
  fst (create_simple_png w1 h1 c1 p1 wd1) = Ok tt ->
  fst (create_simple_png w2 h2 c2 p2 wd2) = Ok tt ->
  files (snd (create_simple_png w1 h1 c1 p1 wd1)) !! p1
    = files (snd (create_simple_png w2 h2 c2 p2 wd2)) !! p2 ->
  w1 = w2 /\ h1 = h2.
Proof.
  intros H1 H2.
  apply create_simple_png_succeeds_iff in H1 as (Ho1 & Hw1 & Hh1).
  apply create_simple_png_succeeds_iff in H2 as (Ho2 & Hw2 & Hh2).
  rewrite !create_simple_png_ok by assumption. simpl.
  rewrite !lookup_insert_eq. intros E.
  assert (placeholder w1 h1 = placeholder w2 h2) as E' by congruence.
  assert (be_decode (slice 16 20 (placeholder w1 h1))
          = be_decode (slice 16 20 (placeholder w2 h2))) as Ew by (by rewrite E').
  assert (be_decode (slice 20 24 (placeholder w1 h1))
          = be_decode (slice 20 24 (placeholder w2 h2))) as Eh by (by rewrite E').
  destruct (placeholder_layout w1 h1 Hw1 Hh1) as (_ & _ & _ & _ & _ & D1 & D1' & _).
  destruct (placeholder_layout w2 h2 Hw2 Hh2) as (_ & _ & _ & _ & _ & D2 & D2' & _).
  split; congruence.
Qed.

Lemma create_simple_png_injective_witness : 192 = 192 /\ 192 = 192.
Proof.
  apply (create_simple_png_injective 192 192 (0, 120, 212) color_path ready_world
           192 192 (255, 255, 255) outline_path ready_world).
  - vm_compute. reflexivity.
  - vm_compute. reflexivity.
  - vm_compute. reflexivity.
Defined.

(** ** The whole run *)

Ltac run_cases pil w Hc Ho E Ed Edn Ef Et :=
  destruct (can_open w color_path) eqn:Hc;
  [ destruct (can_open w outline_path) eqn:Ho;
    [ pose proof (run_ok pil w Hc Ho) as E
    | destruct (run_outline_refused pil w Hc Ho) as (E & Ed & Edn & Ef & Et) ]
  | destruct (run_color_refused pil w Hc) as (E & Ed & Edn & Ef & Et) ].

(** X6.  The exit status of a run, on either path, is 0 when both output
    files can be opened for writing and 1 otherwise; no other status
    occurs. *)
Theorem exit_status_decided pil w :
  fst (run pil w) = if can_open w color_path && can_open w outline_path then 0 else 1.
Proof.
  run_cases pil w Hc Ho E Ed Edn Ef Et; rewrite E; reflexivity.
Qed.

(** X7.  Whatever its outcome, a run on either path changes nothing but
    the two output files: no directory is created or removed, no access
    right changes, and every other file keeps its content. *)
Theorem run_frame pil w :
  dirs (snd (run pil w)) = dirs w /\
  denied (snd (run pil w)) = denied w /\
  delete outline_path (delete color_path (files (snd (run pil w))))
    = delete outline_path (delete color_path (files w)).
Proof.
  run_cases pil w Hc Ho E Ed Edn Ef Et.
  - rewrite E. simpl. repeat split.
    apply map_eq. intros k. repeat (rewrite lookup_delete || rewrite lookup_insert).
    repeat case_decide; done.
  - rewrite Ed, Edn, Ef. repeat split.
    apply map_eq. intros k. repeat (rewrite lookup_delete || rewrite lookup_insert).
    repeat case_decide; done.
  - by rewrite Ed, Edn, Ef.
Qed.

(** X8.  The closing notice of a path ("Icons created successfully!" in
    the primary path, "Simple PNG files created" in the fallback path) is
    printed exactly by the runs that end with status 0. *)
Theorem success_notice_iff pil w :
  success_notice pil ∈ stdout (snd (run pil w)) <-> fst (run pil w) = 0.
Proof.
  unfold stdout.
  run_cases pil w Hc Ho E Ed Edn Ef Et; rewrite ?Et, E; destruct pil as [R|]; simpl;
    (split; [intros H | intros H; try lia]);
    try reflexivity;
    try (exfalso; revert H; concrete_list);
    try concrete_list.
Qed.

(** X9.  In the fallback path too a failed write is not caught: the run
    ends with an [OSError] at the process boundary and status 1 after
    printing only the opening notice; when the color file itself cannot be
    opened no file has changed. *)
Theorem fallback_failure_not_caught w :
  can_open w color_path = false \/ can_open w outline_path = false ->
  fst (run None w) = 1 /\
  last (trace (snd (run None w))) = Some (EvTraceback OSError) /\
  stdout (snd (run None w)) = ["PIL not available, creating simple files"] /\
  dirs (snd (run None w)) = dirs w /\
  (can_open w color_path = false -> files (snd (run None w)) = files w).
Proof.
  intros H. unfold stdout.
  run_cases (@None Rasterizer) w Hc Ho E Ed Edn Ef Et.
  - destruct H; discriminate.
  - rewrite E, Ed, Et. repeat split; try reflexivity. intros; discriminate.
  - rewrite E, Ed, Et, Ef. repeat split; reflexivity.
Qed.

Lemma fallback_failure_not_caught_witness :
  fst (run None bare_world) = 1 /\
  stdout (snd (run None bare_world)) = ["PIL not available, creating simple files"] /\
  files (snd (run None bare_world)) = files bare_world.
Proof.
  destruct (fallback_failure_not_caught bare_world) as (E & _ & Es & _ & Ef).
  { left. vm_compute. reflexivity. }
  split; [exact E|]. split; [exact Es|]. apply Ef. vm_compute. reflexivity.
Defined.

(** X10.  The progress lines of the primary path are truthful: "Color
    icon saved" is printed only when the color file holds the drawn
    icon, and "Outline icon saved" only when the outline file does and
    the run ends with status 0. *)
Theorem progress_lines_truthful (R : Rasterizer) w :
  ("Color icon saved: teams-package/color.png" ∈ stdout (snd (run (Some R) w)) ->
   files (snd (run (Some R) w)) !! color_path = Some (Png color_icon)) /\
  ("Outline icon saved: teams-package/outline.png" ∈ stdout (snd (run (Some R) w)) ->
   files (snd (run (Some R) w)) !! outline_path = Some (Png outline_icon) /\
   fst (run (Some R) w) = 0).
Proof.
  unfold stdout.
  run_cases (Some R) w Hc Ho E Ed Edn Ef Et.
  - rewrite E. cbn [fst snd files].
    destruct (files_after_run (Some R) (files w)) as [Ec Eo].
    split; intros _; [exact Ec | split; [exact Eo | reflexivity]].
  - rewrite Et, Ef. simpl. split.
    + intros _. apply lookup_insert_eq.
    + intros H. exfalso. revert H. concrete_list.
  - rewrite Et. simpl. split; intros H; exfalso; revert H; concrete_list.
Qed.

Lemma progress_lines_truthful_witness :
  files (snd (run (Some geo_rasterizer) outline_denied_world)) !! color_path
    = Some (Png color_icon).
Proof.
  destruct (progress_lines_truthful geo_rasterizer outline_denied_world) as [Hc _].
  apply Hc. apply (bool_decide_unpack _). vm_compute. reflexivity.
Defined.

(** ** The drawn icons *)

Section GlyphFacts.
Context {R : Rasterizer}.

Lemma color_icon_pixel x y :
  0 <= x < 192 -> 0 <= y < 192 ->
  getpixel color_icon x y =
  Some (if polygon_covers [(96, 96); (86, 116); (106, 116)] true 0 x y
        then PxRGB 255 255 255
        else if ellipse_covers (86, 66, 106, 86) true 0 x y then PxRGB 0 120 212
        else if ellipse_covers (76, 56, 116, 96) true 0 x y then PxRGB 255 255 255
        else PxRGB 0 120 212).
Proof.
  intros Hx Hy. unfold color_icon.
  by rewrite !getpixel_paint, getpixel_blank by lia.
Qed.

Lemma outline_icon_pixel x y :
  0 <= x < 32 -> 0 <= y < 32 ->
  getpixel outline_icon x y =
  Some (if polygon_covers [(16, 16); (14, 20); (18, 20)] true 0 x y
        then PxRGBA 255 255 255 255
        else if ellipse_covers (12, 8, 20, 16) false 2 x y then PxRGBA 255 255 255 255
        else PxRGBA 0 0 0 0).
Proof.
  intros Hx Hy. unfold outline_icon.
  by rewrite !getpixel_paint, getpixel_blank by lia.
Qed.

(** A filled polygon does not cover a pixel left of, right of, above or
    below all its vertices. *)
Lemma polygon_outside vs width x y :
  Forall (fun v => x < fst v) vs \/ Forall (fun v => fst v < x) vs \/
  Forall (fun v => y < snd v) vs \/ Forall (fun v => snd v < y) vs ->
  polygon_covers vs true width x y = false.
Proof.
  intros H. destruct (polygon_covers vs true width x y) eqn:E; [|done].
  apply polygon_in_box in E
    as ((v1 & I1 & L1) & (v2 & I2 & L2) & (v3 & I3 & L3) & (v4 & I4 & L4)).
  destruct H as [H | [H | [H | H]]]; rewrite Forall_forall in H.
  - specialize (H v1 I1). simpl in H. lia.
  - specialize (H v2 I2). simpl in H. lia.
  - specialize (H v3 I3). simpl in H. lia.
  - specialize (H v4 I4). simpl in H. lia.
Qed.

Lemma ellipse_outside x0 y0 x1 y1 fill width x y :
  ~ (x0 <= x <= x1 /\ y0 <= y <= y1) ->
  ellipse_covers (x0, y0, x1, y1) fill width x y = false.
Proof.
  intros H. destruct (ellipse_covers _ fill width x y) eqn:E; [|done].
  apply ellipse_in_box in E. tauto.
Qed.
End GlyphFacts.

Ltac outside_polygon :=
  apply polygon_outside;
  first [ left; repeat constructor; simpl; lia
        | right; left; repeat constructor; simpl; lia
        | right; right; left; repeat constructor; simpl; lia
        | right; right; right; repeat constructor; simpl; lia ].

(** X11.  Whatever the rasteriser, the saved color icon has only two
    colours, white and the background blue #0078D4; every pixel outside
    the box x in 76..116, y in 56..116 of the pin is background; and the
    three corners of the pin's point, drawn last, are white. *)
Theorem color_icon_glyph (R : Rasterizer) w :
  fst (run (Some R) w) = 0 ->
  exists im,
    files (snd (run (Some R) w)) !! color_path = Some (Png im) /\
    (forall x y, 0 <= x < 192 -> 0 <= y < 192 ->
       exists p, getpixel im x y = Some p /\
         (p = PxRGB 255 255 255 \/ p = PxRGB 0 120 212) /\
         (~ (76 <= x <= 116 /\ 56 <= y <= 116) -> p = PxRGB 0 120 212)) /\
    getpixel im 96 96 = Some (PxRGB 255 255 255) /\
    getpixel im 86 116 = Some (PxRGB 255 255 255) /\
    getpixel im 106 116 = Some (PxRGB 255 255 255).
Proof.
  intros H. apply run_success_iff in H as [Hc Ho].
  rewrite run_ok by assumption. cbn [snd files].
  destruct (files_after_run (Some R) (files w)) as [Ec _].
  exists color_icon. split; [exact Ec|]. split; [|split; [|split]].
  - intros x y Hx Hy. rewrite color_icon_pixel by assumption.
    eexists. split; [reflexivity|]. split.
    + destruct (polygon_covers _ _ _ _ _); [auto|].
      repeat (destruct (ellipse_covers _ _ _ _ _); [auto|]). auto.
    + intros Hout.
      assert (polygon_covers [(96, 96); (86, 116); (106, 116)] true 0 x y = false) as ->.
      { assert (x < 76 \/ 116 < x \/ y < 56 \/ 116 < y) as [?|[?|[?|?]]] by lia;
          outside_polygon. }
      rewrite (ellipse_outside 76 56 116 96) by lia.
      by destruct (ellipse_covers _ _ _ _ _).
  - rewrite color_icon_pixel by lia. rewrite polygon_vertex; [done|].
    apply elem_of_cons. by left.
  - rewrite color_icon_pixel by lia. rewrite polygon_vertex; [done|].
    apply elem_of_cons. right. apply elem_of_cons. by left.
  - rewrite color_icon_pixel by lia. rewrite polygon_vertex; [done|].
    do 2 (apply elem_of_cons; right). apply elem_of_cons. by left.
Qed.

Lemma color_icon_glyph_witness :
  exists im,
    files (snd (run (Some geo_rasterizer) ready_world)) !! color_path = Some (Png im) /\
    getpixel im 0 0 = Some (PxRGB 0 120 212) /\
    getpixel im 96 96 = Some (PxRGB 255 255 255).
Proof.
  destruct (color_icon_glyph geo_rasterizer ready_world) as (im & Ef & Hp & Ht & _).
  { apply run_success_iff. split; vm_compute; reflexivity. }
  exists im. split; [exact Ef|]. split; [|exact Ht].
  destruct (Hp 0 0) as (p & Ep & _ & Hb); [lia | lia |].
  rewrite Ep, Hb; [reflexivity | lia].
Defined.

(** X12.  Whatever the rasteriser, every pixel of the saved outline icon
    is either fully transparent or opaque white; every pixel outside the
    box x in 12..20, y in 8..20 is transparent; and the three corners of
    the pin's point are opaque white. *)
Theorem outline_icon_glyph (R : Rasterizer) w :
  fst (run (Some R) w) = 0 ->
  exists im,
    files (snd (run (Some R) w)) !! outline_path = Some (Png im) /\
    (forall x y, 0 <= x < 32 -> 0 <= y < 32 ->
       exists p, getpixel im x y = Some p /\
         (p = PxRGBA 255 255 255 255 \/ p = PxRGBA 0 0 0 0) /\
         (~ (12 <= x <= 20 /\ 8 <= y <= 20) -> p = PxRGBA 0 0 0 0)) /\
    getpixel im 16 16 = Some (PxRGBA 255 255 255 255) /\
    getpixel im 14 20 = Some (PxRGBA 255 255 255 255) /\
    getpixel im 18 20 = Some (PxRGBA 255 255 255 255).
Proof.
  intros H. apply run_success_iff in H as [Hc Ho].
  rewrite run_ok by assumption. cbn [snd files].
  destruct (files_after_run (Some R) (files w)) as [_ Eo].
  exists outline_icon. split; [exact Eo|]. split; [|split; [|split]].
  - intros x y Hx Hy. rewrite outline_icon_pixel by assumption.
    eexists. split; [reflexivity|]. split.
    + destruct (polygon_covers _ _ _ _ _); [auto|].
      repeat (destruct (ellipse_covers _ _ _ _ _); [auto|]). auto.
    + intros Hout.
      assert (polygon_covers [(16, 16); (14, 20); (18, 20)] true 0 x y = false) as ->.
      { assert (x < 12 \/ 20 < x \/ y < 8 \/ 20 < y) as [?|[?|[?|?]]] by lia;
          outside_polygon. }
      by rewrite (ellipse_outside 12 8 20 16) by lia.
  - rewrite outline_icon_pixel by lia. rewrite polygon_vertex; [done|].
    apply elem_of_cons. by left.
  - rewrite outline_icon_pixel by lia. rewrite polygon_vertex; [done|].
    apply elem_of_cons. right. apply elem_of_cons. by left.
  - rewrite outline_icon_pixel by lia. rewrite polygon_vertex; [done|].
    do 2 (apply elem_of_cons; right). apply elem_of_cons. by left.
Qed.

Lemma outline_icon_glyph_witness :
  exists im,
    files (snd (run (Some geo_rasterizer) ready_world)) !! outline_path = Some (Png im) /\
    getpixel im 31 31 = Some (PxRGBA 0 0 0 0) /\
    getpixel im 14 20 = Some (PxRGBA 255 255 255 255).
Proof.
  destruct (outline_icon_glyph geo_rasterizer ready_world) as (im & Ef & Hp & _ & Ht & _).
  { apply run_success_iff. split; vm_compute; reflexivity. }
  exists im. split; [exact Ef|]. split; [|exact Ht].
  destruct (Hp 31 31) as (p & Ep & _ & Hb); [lia | lia |].
  rewrite Ep, Hb; [reflexivity | lia].
Defined.
